(** * Hackathon judge: scoring, upsert and ranking report

    A shallow embedding of [hackathon_judge.py]: the two handlers
    [submit_score] and [generate_report], the pure helper
    [calculate_final_score], the start-up code that creates [scores.csv],
    and the constant [TEAM_NAMES].

    Modelling decisions, all of them visible in the definitions below:

    - The file [scores.csv] is modelled at the level of the table pandas
      parses from it ([csv_file]): the file may be absent, zero bytes long,
      unparsable, parse to a table without the expected columns, or parse to
      a list of typed rows.  Writing a table and reading it back is taken to
      give the same rows.
    - Python numbers are the exact rationals [Q]; the literals [0.30] and
      [0.20] are [3/10] and [2/10], and rounding is exact round-half-even.
      Binary floating point (and NaN) is outside the model, except that
      [calculate_final_score] is evaluated a second time on IEEE doubles
      ([B64]), to check the values the rational model gives.
    - Python [str] is [string]; [strip] and [lower] are modelled on ASCII.
    - Exceptions are values of [exn]; a Python computation is a function
      from the world to an [outcome] and a new world ([py]). *)

From Stdlib Require Import PrimFloat FloatOps SpecFloat.
From Stdlib Require Uint63.
From Stdlib Require Import QArith Qabs ZArith Lia List Ascii.
From stdpp Require Import base list strings gmap sorting pretty.

Open Scope string_scope.

(** ** Python strings *)

(** [str.isspace] on the ASCII range: TAB, LF, VT, FF, CR, the four
    separators FS, GS, RS, US, and the space. *)
Definition isspace (c : ascii) : bool :=
  let n := Ascii.nat_of_ascii c in
  ((9 <=? n) && (n <=? 13) || (28 <=? n) && (n <=? 32))%nat.

Fixpoint lstrip (s : string) : string :=
  match s with
  | "" => ""
  | String c s' => if isspace c then lstrip s' else s
  end.

Fixpoint rstrip (s : string) : string :=
  match s with
  | "" => ""
  | String c s' =>
      match rstrip s' with
      | "" => if isspace c then "" else String c ""
      | r => String c r
      end
  end.

(** [s.strip()] *)
Definition strip (s : string) : string := rstrip (lstrip s).

Definition lower_char (c : ascii) : ascii :=
  let n := Ascii.nat_of_ascii c in
  if ((65 <=? n) && (n <=? 90))%nat then Ascii.ascii_of_nat (n + 32) else c.

(** [s.lower()] *)
Fixpoint lower (s : string) : string :=
  match s with
  | "" => ""
  | String c s' => String (lower_char c) (lower s')
  end.

(** Truth value of a string: [not s] holds exactly for the empty string. *)
Definition truthy (s : string) : bool := negb (String.eqb s "").

Definition nl : string := String (Ascii.ascii_of_nat 10) "".

(** [s * n] for a string [s] and an integer [n]: empty when [n <= 0]. *)
Definition str_mul (s : string) (n : Z) : string :=
  Nat.iter (Z.to_nat n) (String.append s) "".

(** ** Python numbers *)

Definition Qltb (x y : Q) : bool := (Qnum x * QDen y <? Qnum y * QDen x)%Z.

(** Nearest integer, ties to the even one. *)
Definition rint (x : Q) : Z :=
  let n := Qnum x in
  let d := Z.pos (Qden x) in
  let q := (n / d)%Z in
  let r := (n mod d)%Z in
  match (2 * r ?= d)%Z with
  | Lt => q
  | Gt => (q + 1)%Z
  | Eq => if Z.even q then q else (q + 1)%Z
  end.

(** [round(x, ndigits)] and [DataFrame.round(ndigits)]. *)
Definition round (x : Q) (ndigits : nat) : Q :=
  let scale := Pos.pow 10 (Pos.of_nat ndigits) in
  match ndigits with
  | O => inject_Z (rint x)
  | _ => Qmake (rint (x * inject_Z (Z.pos scale))) scale
  end.

(** [int(x)]: truncation towards zero. *)
Definition int (x : Q) : Z := Z.quot (Qnum x) (Z.pos (Qden x)).

Definition sign_of (x : Q) : string := if (Qnum x <? 0)%Z then "-" else "".

(** [f"{x:.1f}"] *)
Definition format_1f (x : Q) : string :=
  let k := rint (Qabs x * 10) in
  sign_of x +:+ pretty (k / 10)%Z +:+ "." +:+ pretty (k mod 10)%Z.

(** [f"{x}"] for a float [x] that carries at most two decimals, which is
    what the report prints: the shortest decimal that reads back as [x],
    always with at least one digit after the point. *)
Definition str_float (x : Q) : string :=
  let k := rint (Qabs x * 100) in
  let f := (k mod 100)%Z in
  sign_of x +:+ pretty (k / 100)%Z +:+ "." +:+
  (if (f mod 10 =? 0)%Z then pretty (f / 10)%Z
   else pretty (f / 10)%Z +:+ pretty (f mod 10)%Z).

(** ** The table of scores *)

Module Col.

(** One row of [scores.csv]; the fields are the entries of [COLUMNS]. *)
Record ScoreRecord := {
  timestamp : string;
  judge_name : string;
  team_name : string;
  go_live : Q;
  usefulness : Q;
  taste : Q;
  problem_statement : Q
}.

End Col.
Abbreviation ScoreRecord := Col.ScoreRecord.

Definition COLUMNS : list string :=
  ["timestamp"; "judge_name"; "team_name"; "go_live"; "usefulness"; "taste";
   "problem_statement"].

(** What [pd.read_csv] hands back: a frame whose columns are [COLUMNS], or a
    non-empty frame in which those columns are missing ([more + 1] rows). *)
Inductive DataFrame :=
| Frame (rows : list ScoreRecord)
| BadFrame (more : nat).

Definition len (df : DataFrame) : nat :=
  match df with
  | Frame rows => length rows
  | BadFrame more => S more
  end.

(** ** Exceptions and the world *)

(** The exceptions the two handlers can meet; all are subclasses of
    [Exception], which is what their [except] clauses catch. *)
Inductive exn :=
| EmptyDataError
| FileNotFoundError
| ParserError (msg : string)
| OSError (msg : string)
| KeyError (key : string).

(** [str(e)] *)
Definition str (e : exn) : string :=
  match e with
  | EmptyDataError => "No columns to parse from file"
  | FileNotFoundError => "[Errno 2] No such file or directory: 'scores.csv'"
  | ParserError msg => msg
  | OSError msg => msg
  | KeyError key => "'" +:+ key +:+ "'"
  end.

(** The state of [scores.csv]. *)
Inductive csv_file :=
| Absent
| ZeroBytes
| Unreadable (cause : exn)
| Misshapen (more : nat)
| Table (rows : list ScoreRecord).

(** The world a handler runs in: the file, whether the file can be written
    (a cause when it cannot), and the reading of the clock as
    [datetime.now().strftime("%Y-%m-%d %H:%M:%S")] gives it. *)
Record world := {
  scores_csv : csv_file;
  write_fault : option exn;
  clock : string
}.

Definition set_scores_csv (f : csv_file) (w : world) : world :=
  {| scores_csv := f; write_fault := write_fault w; clock := clock w |}.

Inductive outcome (A : Type) :=
| Returned (a : A)
| Raised (e : exn).
Arguments Returned {A} a.
Arguments Raised {A} e.

(** A Python computation: it runs in a world, may change it, and either
    returns a value or raises. *)
Definition py (A : Type) : Type := world -> outcome A * world.

#[global] Instance py_ret : MRet py := fun A a w => (Returned a, w).

#[global] Instance py_bind : MBind py := fun A B k m w =>
  match m w with
  | (Returned a, w') => k a w'
  | (Raised e, w') => (Raised e, w')
  end.

Definition raise {A} (e : exn) : py A := fun w => (Raised e, w).

(** [try: body except Exception as e: handler(e)] *)
Definition try_except {A} (body : py A) (handler : exn -> py A) : py A :=
  fun w =>
    match body w with
    | (Returned a, w') => (Returned a, w')
    | (Raised e, w') => handler e w'
    end.

(** [pd.read_csv('scores.csv')] *)
Definition read_csv : py DataFrame := fun w =>
  match scores_csv w with
  | Absent => (Raised FileNotFoundError, w)
  | ZeroBytes => (Raised EmptyDataError, w)
  | Unreadable cause => (Raised cause, w)
  | Misshapen more => (Returned (BadFrame more), w)
  | Table rows => (Returned (Frame rows), w)
  end.

(** [df.to_csv('scores.csv', index=False)] *)
Definition to_csv (df : DataFrame) : py unit := fun w =>
  match write_fault w with
  | Some cause => (Raised cause, w)
  | None =>
      (Returned tt,
       set_scores_csv
         (match df with Frame rows => Table rows | BadFrame more => Misshapen more end)
         w)
  end.

(** [datetime.now().strftime("%Y-%m-%d %H:%M:%S")] *)
Definition datetime_now : py string := fun w => (Returned (clock w), w).

(** The module-level code that runs once at import: an absent or zero-byte
    [scores.csv] is replaced by a table that holds only the header
    ([pd.DataFrame(columns=COLUMNS).to_csv(...)]). *)
Definition startup : py unit := fun w =>
  match scores_csv w with
  | Absent => to_csv (Frame []) w
  | ZeroBytes => to_csv (Frame []) w
  | _ => (Returned tt, w)
  end.

(** ** [calculate_final_score] *)

Definition calculate_final_score (go_live usefulness taste problem_statement : Q) : Q :=
  let final_score :=
    (((go_live * 0.30) +
      (usefulness * 0.30) +
      (taste * 0.20) +
      (problem_statement * 0.20)) * 20)%Q in
  round final_score 2.

(** ** [calculate_final_score] in binary64 *)

Module B64.

(** The rational number a finite double stands for. *)
Definition exact (x : float) : option Q :=
  match Prim2SF x with
  | S754_zero _ => Some 0%Q
  | S754_finite s m e =>
      let z := if s then Z.neg m else Z.pos m in
      Some (match e with
            | Z0 => inject_Z z
            | Zpos k => inject_Z (z * 2 ^ Zpos k)
            | Zneg k => Qmake z (2 ^ k)
            end)
  | _ => None
  end.

(** The double of a whole number below 2^53 in absolute value. *)
Definition of_Z (k : Z) : float :=
  match k with
  | Z0 => 0%float
  | Zpos _ => of_uint63 (Uint63.of_Z k)
  | Zneg _ => (- of_uint63 (Uint63.of_Z (- k)))%float
  end.

(** [round(x, 2)] on a double: the exact value of [x] rounded half-even to
    hundredths, then the double nearest to that decimal. *)
Definition round2 (x : float) : float :=
  match exact x with
  | Some q => (of_Z (rint (q * 100)) / 100)%float
  | None => x
  end.

#[warnings="-inexact-float"]
Definition calculate_final_score
    (go_live usefulness taste problem_statement : float) : float :=
  let final_score :=
    (((go_live * 0.30) +
      (usefulness * 0.30) +
      (taste * 0.20) +
      (problem_statement * 0.20)) * 20)%float in
  round2 final_score.

End B64.

(** ** [submit_score] *)

(** The boolean mask
    [(df['judge_name'].str.lower() == judge_name.strip().lower())
     & (df['team_name'] == team_name)]. *)
Definition mask (judge_name team_name : string) (r : ScoreRecord) : bool :=
  String.eqb (lower (Col.judge_name r)) (lower (strip judge_name))
  && String.eqb (Col.team_name r) team_name.

(** [df[m]] for a boolean mask [m] built from the two name columns: a frame
    without these columns raises [KeyError] when the mask is built. *)
Definition select (df : DataFrame) (m : ScoreRecord -> bool) : py DataFrame :=
  match df with
  | Frame rows => mret (Frame (List.filter m rows))
  | BadFrame _ => raise (KeyError "judge_name")
  end.

Definition empty (df : DataFrame) : bool := (len df =? 0)%nat.

(** [pd.concat([df, pd.DataFrame([new])], ignore_index=True)] *)
Definition concat (df : DataFrame) (new : ScoreRecord) : DataFrame :=
  match df with
  | Frame rows => Frame (rows ++ [new])
  | BadFrame more => BadFrame (S more)
  end.

Definition out_of_range (score : Q) : bool := Qltb score 0 || Qltb 5 score.

Definition msg_name : string := "Please enter your name!".
Definition msg_team : string := "Please select a team!".
Definition msg_range : string := "All scores must be between 0 and 5!".
Definition msg_submitted (team_name : string) : string :=
  "✅ Score submitted successfully for team " +:+ team_name +:+ "!".
Definition msg_submit_error (e : exn) : string :=
  "Error submitting score: " +:+ str e.

(** The inner [try: pd.read_csv(...) except pd.errors.EmptyDataError] of
    [submit_score]: a zero-byte file counts as a table without rows. *)
Definition read_scores : py DataFrame :=
  try_except read_csv
    (fun e => match e with
              | EmptyDataError => mret (Frame [])
              | _ => raise e
              end).

(** The suite of the outer [try] of [submit_score]. *)
Definition submit_score_try (judge_name team_name : string)
    (go_live usefulness taste problem_statement : Q) : py (string * string) :=
  scores_df ← read_scores;
  let scores := [go_live; usefulness; taste; problem_statement] in
  if existsb out_of_range scores then mret (msg_range, judge_name)
  else
    scores_df ←
      (if (0 <? len scores_df)%nat then
         duplicate ← select scores_df (mask judge_name team_name);
         if negb (empty duplicate)
         then select scores_df (fun r => negb (mask judge_name team_name r))
         else mret scores_df
       else mret scores_df);
    now ← datetime_now;
    let new_score :=
      {| Col.timestamp := now;
         Col.judge_name := strip judge_name;
         Col.team_name := strip team_name;
         Col.go_live := go_live;
         Col.usefulness := usefulness;
         Col.taste := taste;
         Col.problem_statement := problem_statement |} in
    let scores_df := concat scores_df new_score in
    _ ← to_csv scores_df;
    mret (msg_submitted team_name, judge_name).

Definition submit_score (judge_name team_name : string)
    (go_live usefulness taste problem_statement : Q) : py (string * string) :=
  if negb (truthy (strip judge_name)) then mret (msg_name, judge_name)
  else if negb (truthy team_name) then mret (msg_team, judge_name)
  else
    try_except
      (submit_score_try judge_name team_name
         go_live usefulness taste problem_statement)
      (fun e => mret (msg_submit_error e, judge_name)).

(** ** [generate_report] *)

Definition TEAM_NAMES : list string :=
  ["tehlaninayan7";
   "kya@karu.mai";
   "Sugarplum";
   "Bob the Builders AI";
   "permissionless";
   "LLM Ninjas";
   "MailMatch";
   "Ironold";
   "ChaiBiscuit";
   "Dostwriter";
   "Neural Babel";
   "Fluid";
   "Team 1";
   "fiction AI";
   "SOLOYOLO"].

Module Agg.

(** One row of [team_stats]: the index (the team), the aggregated columns,
    and the [final_score] column added afterwards. *)
Record TeamStats := {
  team : string;
  num_judges : nat;
  go_live : Q;
  usefulness : Q;
  taste : Q;
  problem_statement : Q;
  final_score : Q
}.

End Agg.
Abbreviation TeamStats := Agg.TeamStats.

Definition sum (xs : list Q) : Q := foldr Qplus 0%Q xs.

(** The mean of a non-empty column. *)
Definition mean (xs : list Q) : Q := (sum xs / inject_Z (Z.of_nat (length xs)))%Q.

(** The maximum of a non-empty column. *)
Definition maximum (xs : list Q) : Q :=
  match xs with
  | [] => 0%Q
  | x :: xs' => foldl (fun m y => if Qltb m y then y else m) x xs'
  end.

(** [sorted(xs)] for a set of strings: ascending in the order of [str],
    which compares character codes. *)
Definition sorted (xs : gset string) : list string :=
  merge_sort String.le (elements xs).

(** [Series.nunique()]: the number of distinct values. *)
Definition nunique (xs : list string) : nat := size (list_to_set xs : gset string).

(** One group of [groupby('team_name').agg({...}).round(2)], with the
    [final_score] that [team_stats.apply(...)] adds to the row. *)
Definition aggregate (rows : list ScoreRecord) (team : string) : TeamStats :=
  let group := List.filter (fun r => String.eqb (Col.team_name r) team) rows in
  let go_live := round (mean (Col.go_live <$> group)) 2 in
  let usefulness := round (mean (Col.usefulness <$> group)) 2 in
  let taste := round (mean (Col.taste <$> group)) 2 in
  let problem_statement := round (mean (Col.problem_statement <$> group)) 2 in
  {| Agg.team := team;
     Agg.num_judges := length group;
     Agg.go_live := go_live;
     Agg.usefulness := usefulness;
     Agg.taste := taste;
     Agg.problem_statement := problem_statement;
     Agg.final_score :=
       calculate_final_score go_live usefulness taste problem_statement |}.

(** [groupby('team_name')]: one group per distinct team, the groups in
    ascending order of the key; a frame without the column raises. *)
Definition groupby_agg (df : DataFrame) : py (list TeamStats) :=
  match df with
  | Frame rows =>
      mret (aggregate rows <$> sorted (list_to_set (Col.team_name <$> rows)))
  | BadFrame _ => raise (KeyError "team_name")
  end.

Fixpoint insert_desc (x : TeamStats) (l : list TeamStats) : list TeamStats :=
  match l with
  | [] => [x]
  | y :: l' =>
      if Qle_bool (Agg.final_score y) (Agg.final_score x) then x :: l
      else y :: insert_desc x l'
  end.

(** [sort_values('final_score', ascending=False)].  The source leaves the
    order of equal scores to the sorting routine; here they keep the order
    they had. *)
Definition sort_values (l : list TeamStats) : list TeamStats :=
  foldr insert_desc [] l.

(** [enumerate(xs, 1)] *)
Definition enumerate {A} (xs : list A) : list (nat * A) :=
  zip (seq 1 (length xs)) xs.

Definition bar (x : Q) : string :=
  let bar_length := int (x * 4) in
  str_float x +:+ "/5 " +:+ str_mul "█" bar_length +:+ str_mul "░" (20 - bar_length).

(** The text one pass of the [for idx, (team, stats)] loop appends. *)
Definition render_rank (entry : nat * TeamStats) : string :=
  let '(idx, stats) := entry in
  let team := Agg.team stats in
  let medal :=
    if (idx =? 1)%nat then "🥇" else if (idx =? 2)%nat then "🥈"
    else if (idx =? 3)%nat then "🥉" else "  " in
  medal +:+ " Rank #" +:+ pretty idx +:+ ": " +:+ team +:+ nl +:+
  str_mul "─" 40 +:+ nl +:+
  "📊 FINAL SCORE: " +:+ format_1f (Agg.final_score stats) +:+ "/100" +:+
  " (Scored by " +:+ pretty (Agg.num_judges stats) +:+ " judge" +:+
    (if (1 <? Agg.num_judges stats)%nat then "s" else "") +:+ ")" +:+ nl +:+ nl +:+
  "Detailed Scores:" +:+ nl +:+
  "Go Live       (30%): " +:+ bar (Agg.go_live stats) +:+ nl +:+
  "Usefulness   (30%): " +:+ bar (Agg.usefulness stats) +:+ nl +:+
  "Taste        (20%): " +:+ bar (Agg.taste stats) +:+ nl +:+
  "Problem Stmt (20%): " +:+ bar (Agg.problem_statement stats) +:+ nl +:+
  nl +:+ str_mul "=" 40 +:+ nl +:+ nl.

Definition join (parts : list string) : string := foldr String.append "" parts.

Definition header : string :=
  "🏆 HACKATHON FINAL RANKINGS 🏆" +:+ nl +:+ str_mul "=" 40 +:+ nl +:+ nl.

(** The ranked part of the report: one block per team, in rank order. *)
Definition rankings (team_stats : list TeamStats) : string :=
  join (render_rank <$> enumerate team_stats).

(** The summary footer. *)
Definition summary (scores_df : DataFrame) (judges : list string)
    (team_stats : list TeamStats) : string :=
  "Total Teams Evaluated: " +:+ pretty (length team_stats) +:+ nl +:+
  "Total Scores Submitted: " +:+ pretty (len scores_df) +:+ nl +:+
  "Number of Judges: " +:+ pretty (nunique judges) +:+ nl +:+
  "Average Score: " +:+ format_1f (mean (Agg.final_score <$> team_stats)) +:+ "/100" +:+ nl +:+
  "Highest Score: " +:+ format_1f (maximum (Agg.final_score <$> team_stats)) +:+ "/100" +:+ nl.

(** [set(TEAM_NAMES) - set(team_stats.index)] *)
Definition unscored (team_stats : list TeamStats) : gset string :=
  list_to_set TEAM_NAMES ∖ list_to_set (Agg.team <$> team_stats).

(** The tail of the report: nothing when every known team has a score. *)
Definition not_yet_scored (unscored_teams : gset string) : string :=
  if decide (unscored_teams = ∅) then ""
  else
    nl +:+ "Teams Not Yet Scored:" +:+ nl +:+
    join ((fun team => "• " +:+ team +:+ nl) <$> sorted unscored_teams).

(** [scores_df['judge_name']] *)
Definition judge_column (df : DataFrame) : list string :=
  match df with
  | Frame rows => Col.judge_name <$> rows
  | BadFrame _ => []
  end.

Definition msg_no_scores : string := "No scores submitted yet!".
Definition msg_report_error (e : exn) : string :=
  "Error generating report: " +:+ str e.

(** The suite of the [try] of [generate_report]. *)
Definition generate_report_try : py string :=
  scores_df ← read_csv;
  if (len scores_df =? 0)%nat then mret msg_no_scores
  else
    team_stats ← groupby_agg scores_df;
    let team_stats := sort_values team_stats in
    let report := header in
    let report := report +:+ rankings team_stats in
    let report :=
      report +:+ summary scores_df (judge_column scores_df) team_stats in
    let unscored_teams := unscored team_stats in
    let report := report +:+ not_yet_scored unscored_teams in
    mret report.

Definition generate_report : py string :=
  try_except generate_report_try (fun e => mret (msg_report_error e)).

(** ** Notions used in the statements *)

(** The row [submit_score] builds from its arguments and the clock. *)
Definition new_score (now judge_name team_name : string)
    (go_live usefulness taste problem_statement : Q) : ScoreRecord :=
  {| Col.timestamp := now;
     Col.judge_name := strip judge_name;
     Col.team_name := strip team_name;
     Col.go_live := go_live;
     Col.usefulness := usefulness;
     Col.taste := taste;
     Col.problem_statement := problem_statement |}.

(** Insert-or-replace: drop the rows the mask selects, append the new one. *)
Definition upsert (judge_name team_name : string) (new : ScoreRecord)
    (rows : list ScoreRecord) : list ScoreRecord :=
  List.filter (fun r => negb (mask judge_name team_name r)) rows ++ [new].

Definition in_range (x : Q) : Prop := (0 <= x)%Q ∧ (x <= 5)%Q.




(** The rows of [team_stats] in rank order, for a table with rows. *)
Definition ranking (rows : list ScoreRecord) : list TeamStats :=
  sort_values (aggregate rows <$> sorted (list_to_set (Col.team_name <$> rows))).




(** What [read_scores] does, by the state of the file. *)
Definition loaded (f : csv_file) : DataFrame + exn :=
  match f with
  | Absent => inr FileNotFoundError
  | ZeroBytes => inl (Frame [])
  | Unreadable EmptyDataError => inl (Frame [])
  | Unreadable cause => inr cause
  | Misshapen more => inl (BadFrame more)
  | Table rows => inl (Frame rows)
  end.

(** ** Sample worlds *)

Definition w_empty : world :=
  {| scores_csv := Table []; write_fault := None; clock := "2025-03-01 10:00:00" |}.

Definition w_absent : world := set_scores_csv Absent w_empty.

Definition w_zero_bytes : world := set_scores_csv ZeroBytes w_empty.

Definition w_locked : world :=
  set_scores_csv
    (Unreadable (OSError "[Errno 13] Permission denied: 'scores.csv'")) w_empty.

(** The world a handler leaves behind. *)
Definition after {A} (run : outcome A * world) : world := run.2.




(** Sample table: Team 1 scores 80.00 and Fluid scores 90.00. *)
Definition rows_80_90 : list ScoreRecord :=
  [new_score "2025-03-01 10:00:00" "Ann" "Team 1" 4 4 4 4;
   new_score "2025-03-01 10:05:00" "Ann" "Fluid" 5 4 5 4].


(** The table after judge "Alice" scored Team 1 and judge "alice" scored
    Fluid. *)
Definition w_alice : world :=
  after (submit_score "alice" "Fluid" 5 4 5 4
           (after (submit_score "Alice" "Team 1" 4 4 4 4 w_empty))).

(** ** Notions used for the further properties *)

From Stdlib Require Import Lqa.

(** A string that [strip] leaves as it is. *)
Definition trimmed (s : string) : Prop := strip s = s.

(** The pair by which [submit_score] recognises an earlier row. *)
Definition key (r : ScoreRecord) : string * string :=
  (lower (Col.judge_name r), Col.team_name r).

(** A row as [submit_score] writes it: both names trimmed, the judge name
    not empty, the four ratings in [0,5]. *)
Definition well_formed (r : ScoreRecord) : Prop :=
  trimmed (Col.judge_name r) ∧ Col.judge_name r ≠ "" ∧
  trimmed (Col.team_name r) ∧
  in_range (Col.go_live r) ∧ in_range (Col.usefulness r) ∧
  in_range (Col.taste r) ∧ in_range (Col.problem_statement r).




(** The values a slider of the form sends: [minimum=0], [maximum=5],
    [step=1]. *)
Definition slider_values : list Z := [0; 1; 2; 3; 4; 5]%Z.

(** Whether the double [calculate_final_score] computes from four whole
    ratings stands for the number the rational model gives. *)
Definition doubles_agree (g u t p : Z) : bool :=
  match B64.exact (B64.calculate_final_score
                     (B64.of_Z g) (B64.of_Z u) (B64.of_Z t) (B64.of_Z p)) with
  | Some q =>
      Qeq_bool q (calculate_final_score
                    (inject_Z g) (inject_Z u) (inject_Z t) (inject_Z p))
  | None => false
  end.

(** ** Helper lemmas *)






Lemma filter_none_keeps_all {A} (m : A → bool) (l : list A) :
  List.filter m l = [] → List.filter (fun r => negb (m r)) l = l.
Proof.
  induction l as [|x l IH]; simpl; [done|].
  destruct (m x); simpl; [done|]. intros H. by rewrite IH.
Qed.




Lemma read_scores_loaded (w : world) :
  read_scores w =
  match loaded (scores_csv w) with
  | inl df => (Returned df, w)
  | inr e => (Raised e, w)
  end.
Proof.
  unfold read_scores, try_except, read_csv, loaded.
  destruct (scores_csv w) as [| |[]| |]; reflexivity.
Qed.

(** Unfolding of the monad operations of [py]. *)
Ltac run_py :=
  unfold mbind, py_bind, mret, py_ret, raise, datetime_now, to_csv, read_csv.

Section ValidNames.

(** A judge name and a team name that pass the two checks at the head of
    [submit_score]. *)
Variables j t : string.
Hypothesis Hj : truthy (strip j) = true.
Hypothesis Ht : truthy t = true.

(** The rows [submit_score] keeps before it appends the new one are the
    rows outside the mask, whether or not a duplicate was found. *)
Lemma dedup_step (rows : list ScoreRecord) (w : world) :
  (if (0 <? len (Frame rows))%nat then
     duplicate ← select (Frame rows) (mask j t);
     if negb (empty duplicate)
     then select (Frame rows) (fun r => negb (mask j t r))
     else mret (Frame rows)
   else mret (Frame rows)) w
  = (Returned (Frame (List.filter (fun r => negb (mask j t r)) rows)), w).
Proof.
  destruct rows as [|r rows]; [reflexivity|].
  change (0 <? len (Frame (r :: rows)))%nat with true. cbv iota.
  unfold select, empty, len. run_py.
  destruct (List.filter (mask j t) (r :: rows)) as [|d ds] eqn:E.
  - simpl negb. cbv iota. by rewrite (filter_none_keeps_all _ _ E).
  - reflexivity.
Qed.

(** [submit_score] case by case, once both names pass their checks. *)
Lemma submit_score_run (g u a p : Q) (w : world) :
  submit_score j t g u a p w =
  match loaded (scores_csv w) with
  | inr e => (Returned (msg_submit_error e, j), w)
  | inl df =>
      if existsb out_of_range [g; u; a; p] then (Returned (msg_range, j), w)
      else
        match df with
        | BadFrame _ => (Returned (msg_submit_error (KeyError "judge_name"), j), w)
        | Frame rows =>
            match write_fault w with
            | Some cause => (Returned (msg_submit_error cause, j), w)
            | None =>
                (Returned (msg_submitted t, j),
                 set_scores_csv
                   (Table (upsert j t (new_score (clock w) j t g u a p) rows)) w)
            end
        end
  end.
Proof.
  unfold submit_score. rewrite Hj, Ht. cbv [negb].
  unfold try_except at 1, submit_score_try.
  unfold mbind at 1, py_bind at 1. rewrite read_scores_loaded.
  destruct (loaded (scores_csv w)) as [df|e]; [|reflexivity].
  destruct (existsb out_of_range [g; u; a; p]); [reflexivity|].
  destruct df as [rows|more].
  - unfold mbind at 1, py_bind at 1. rewrite dedup_step.
    unfold concat. run_py.
    destruct (write_fault w); reflexivity.
  - reflexivity.
Qed.

End ValidNames.








(** No name of the known team list has surrounding whitespace. *)
Lemma TEAM_NAMES_trimmed : Forall (fun t => strip t = t) TEAM_NAMES.
Proof. repeat constructor. Qed.


(** ** Upsert by (judge, team) *)




(** ** The range check of [submit_score] *)




(** ** A rejected submission writes nothing *)




(** ** Ratings need not be whole numbers *)



(** ** Nothing is raised past the two handlers *)

(** C4: in every world, on every input, [submit_score] returns a pair of a
    message and the judge name as given, and [generate_report] returns a
    string and leaves the world as it was; neither ends in [Raised].  The
    message is the one built from the exception, for each exception that
    the suite of the handler's [try] raises. *)
Theorem handlers_never_raise :
  (∀ (j t : string) (g u a p : Q) (w : world),
     ∃ msg w', submit_score j t g u a p w = (Returned (msg, j), w')) ∧
  (∀ w : world, ∃ report, generate_report w = (Returned report, w)) ∧
  (∀ (j t : string) (g u a p : Q) (w : world),
     truthy (strip j) && truthy t = true →
     match submit_score_try j t g u a p w with
     | (Raised e, w') =>
         submit_score j t g u a p w = (Returned (msg_submit_error e, j), w')
     | (Returned r, w') => submit_score j t g u a p w = (Returned r, w')
     end) ∧
  (∀ w : world,
     match generate_report_try w with
     | (Raised e, w') => generate_report w = (Returned (msg_report_error e), w')
     | (Returned r, w') => generate_report w = (Returned r, w')
     end).
Proof.
  split; [|split; [|split]].
  - intros j t g u a p w.
    destruct (truthy (strip j)) eqn:Hj;
      [|exists msg_name, w; unfold submit_score; by rewrite Hj].
    destruct (truthy t) eqn:Ht;
      [|exists msg_team, w; unfold submit_score; by rewrite Hj, Ht].
    rewrite (submit_score_run j t Hj Ht g u a p w).
    destruct (loaded (scores_csv w)) as [[rows|more]|e];
      destruct (existsb out_of_range [g; u; a; p]);
      try destruct (write_fault w); eauto.
  - intros w. unfold generate_report, try_except, generate_report_try.
    run_py.
    destruct (scores_csv w) as [| |cause|more|rows]; eauto.
    destruct rows; simpl; eauto.
  - intros j t g u a p w [Hj Ht]%andb_true_iff.
    unfold submit_score. rewrite Hj, Ht. cbv [negb]. unfold try_except.
    by destruct (submit_score_try j t g u a p w) as [[r|e] w'].
  - intros w. unfold generate_report, try_except.
    by destruct (generate_report_try w) as [[r|e] w'].
Qed.

Lemma handlers_never_raise_witness :
  submit_score "Ann" "Fluid" 1 1 1 1 w_locked =
  (Returned
     (msg_submit_error (OSError "[Errno 13] Permission denied: 'scores.csv'"),
      "Ann"), w_locked).
Proof.
  exact (proj1 (proj2 (proj2 handlers_never_raise))
           "Ann" "Fluid" 1%Q 1%Q 1%Q 1%Q w_locked eq_refl).
Defined.

(** ** The report: order of the ranked teams *)

Lemma insert_desc_Permutation (x : TeamStats) (l : list TeamStats) :
  insert_desc x l ≡ₚ x :: l.
Proof.
  induction l as [|y l IH]; simpl; [done|].
  destruct (Qle_bool _ _); [done|].
  rewrite IH. apply Permutation_swap.
Qed.

Lemma sort_values_Permutation (l : list TeamStats) : sort_values l ≡ₚ l.
Proof.
  induction l as [|x l IH]; simpl; [done|].
  by rewrite insert_desc_Permutation, IH.
Qed.






Lemma append_assoc (a b c : string) : (a +:+ b) +:+ c = a +:+ b +:+ c.
Proof.
  induction a as [|x a IH]; [done|].
  change (String x ((a +:+ b) +:+ c) = String x (a +:+ b +:+ c)).
  by rewrite IH.
Qed.

Lemma append_nil_r (s : string) : s +:+ "" = s.
Proof.
  induction s as [|c s IH]; [done|].
  change (String c (s +:+ "") = String c s). by rewrite IH.
Qed.

Lemma join_app (l1 l2 : list string) : join (l1 ++ l2) = join l1 +:+ join l2.
Proof.
  induction l1 as [|x l1 IH]; [done|].
  change (join ((x :: l1) ++ l2)) with (x +:+ join (l1 ++ l2)).
  change (join (x :: l1)) with (x +:+ join l1).
  by rewrite IH, append_assoc.
Qed.




(** [generate_report] on a table that holds only the header. *)
Lemma generate_report_header_only (w : world) :
  scores_csv w = Table [] → generate_report w = (Returned msg_no_scores, w).
Proof.
  intros Hw. unfold generate_report, try_except, generate_report_try.
  run_py. by rewrite Hw.
Qed.


Lemma rows_80_90_scores :
  Agg.final_score (aggregate rows_80_90 "Team 1") = 80.00%Q ∧
  Agg.final_score (aggregate rows_80_90 "Fluid") = 90.00%Q.
Proof. split; reflexivity. Qed.



(** ** The report: teams not yet scored *)

Lemma sorted_elem_of (X : gset string) (t : string) : t ∈ sorted X ↔ t ∈ X.
Proof. unfold sorted. by rewrite merge_sort_Permutation, elem_of_elements. Qed.



Lemma aggregate_team (rows : list ScoreRecord) (t : string) :
  Agg.team (aggregate rows t) = t.
Proof. reflexivity. Qed.

(** The ranked teams are the teams that have a row in the table. *)
Lemma ranking_teams (rows : list ScoreRecord) (t : string) :
  t ∈ (Agg.team <$> ranking rows) ↔ t ∈ (Col.team_name <$> rows).
Proof.
  unfold ranking. rewrite sort_values_Permutation.
  rewrite <- list_fmap_compose, list_elem_of_fmap.
  rewrite <- (elem_of_list_to_set (C:=gset string)), <- sorted_elem_of.
  split.
  - intros (key & -> & Hkey). exact Hkey.
  - intros Ht. by exists t.
Qed.

Lemma unscored_elem_of (rows : list ScoreRecord) (t : string) :
  t ∈ unscored (ranking rows) ↔
  t ∈ TEAM_NAMES ∧ t ∉ (Col.team_name <$> rows).
Proof.
  unfold unscored.
  by rewrite elem_of_difference, !elem_of_list_to_set, ranking_teams.
Qed.



(** The tail of the report for the sample table. *)
Lemma unscored_tail_80_90 :
  sorted (unscored (ranking rows_80_90)) =
  ["Bob the Builders AI"; "ChaiBiscuit"; "Dostwriter"; "Ironold";
   "LLM Ninjas"; "MailMatch"; "Neural Babel"; "SOLOYOLO"; "Sugarplum";
   "fiction AI"; "kya@karu.mai"; "permissionless"; "tehlaninayan7"].
Proof. vm_compute. reflexivity. Qed.

(** ** The report: the number of judges *)

(** C7 fails on the code: [Series.nunique()] compares the stored judge names
    as they are.  After Alice scored Team 1 and alice scored Fluid the
    table holds two rows whose judge names differ in case only, and the
    report says "Number of Judges: 2". *)
Theorem judges_counted_case_sensitively :
  let r1 := new_score (clock w_empty) "Alice" "Team 1" 4 4 4 4 in
  let r2 := new_score (clock w_empty) "alice" "Fluid" 5 4 5 4 in
  scores_csv w_alice = Table [r1; r2] ∧
  lower (Col.judge_name r1) = lower (Col.judge_name r2) ∧
  nunique (Col.judge_name <$> [r1; r2]) = 2%nat ∧
  generate_report w_alice =
    (Returned
       (header +:+ rankings (ranking [r1; r2])
        +:+ ("Total Teams Evaluated: 2" +:+ nl
             +:+ "Total Scores Submitted: 2" +:+ nl
             +:+ "Number of Judges: 2" +:+ nl
             +:+ "Average Score: 85.0/100" +:+ nl
             +:+ "Highest Score: 90.0/100" +:+ nl)
        +:+ not_yet_scored (unscored (ranking [r1; r2]))), w_alice).
Proof.
  intros r1 r2. split; [reflexivity|]. split; [reflexivity|].
  split; [reflexivity|]. vm_compute. reflexivity.
Qed.

(** ** The report on a store without rows *)

(** C5 fails on the code for the zero-byte and the absent file:
    [generate_report] does not catch [EmptyDataError] the way [submit_score]
    does, so the failed read ends in the error string.  Only the table that
    holds just the header gives the "no scores yet" message; that is the
    table the start-up code leaves in place of an absent or zero-byte
    file. *)
Theorem report_on_stores_without_rows :
  generate_report w_zero_bytes
    = (Returned "Error generating report: No columns to parse from file",
       w_zero_bytes) ∧
  generate_report w_absent
    = (Returned
         "Error generating report: [Errno 2] No such file or directory: 'scores.csv'",
       w_absent) ∧
  generate_report w_empty = (Returned msg_no_scores, w_empty) ∧
  read_scores w_zero_bytes = (Returned (Frame []), w_zero_bytes) ∧
  startup w_zero_bytes = (Returned tt, w_empty) ∧
  startup w_absent = (Returned tt, w_empty).
Proof. repeat split. Qed.

(** ** The weighted score *)




(** ** Further properties: what [submit_score] keeps in the table *)

Lemma lstrip_idem (s : string) : lstrip (lstrip s) = lstrip s.
Proof.
  induction s as [|c s IH]; [done|].
  simpl. destruct (isspace c) eqn:E; [done|]. simpl. by rewrite E.
Qed.

Lemma rstrip_idem (s : string) : rstrip (rstrip s) = rstrip s.
Proof.
  induction s as [|c s IH]; [done|].
  simpl. destruct (rstrip s) as [|d r] eqn:E.
  - destruct (isspace c) eqn:Ec; [done|]. simpl. by rewrite Ec.
  - simpl. simpl in IH. by rewrite IH.
Qed.

Lemma lstrip_length (s : string) :
  (String.length (lstrip s) <= String.length s)%nat.
Proof.
  induction s as [|d s IH]; simpl; [done|].
  destruct (isspace d); simpl; lia.
Qed.

(** [rstrip] does not bring whitespace to the front. *)
Lemma lstrip_rstrip (s : string) : lstrip s = s → lstrip (rstrip s) = rstrip s.
Proof.
  destruct s as [|c s]; [done|]. simpl.
  destruct (isspace c) eqn:Ec.
  - intros H. pose proof (lstrip_length s) as Hlen.
    rewrite H in Hlen. simpl in Hlen. lia.
  - intros _. destruct (rstrip s); simpl; by rewrite Ec.
Qed.

Lemma strip_trimmed (s : string) : trimmed (strip s).
Proof.
  unfold trimmed, strip.
  rewrite (lstrip_rstrip (lstrip s) (lstrip_idem s)). apply rstrip_idem.
Qed.




Lemma filter_elem_of {A} (f : A → bool) (l : list A) (x : A) :
  x ∈ List.filter f l ↔ x ∈ l ∧ f x = true.
Proof. rewrite !list_elem_of_In. apply List.filter_In. Qed.

Lemma filter_Forall {A} (P : A → Prop) (f : A → bool) (l : list A) :
  Forall P l → Forall P (List.filter f l).
Proof.
  rewrite !Forall_forall. intros H x Hx. apply filter_elem_of in Hx as [Hx _]. auto.
Qed.












(** ** Further properties: the numbers of the report *)

(** [rint] stays between two whole numbers that enclose its argument. *)
Lemma rint_between (x : Q) (lo hi : Z) :
  (inject_Z lo <= x)%Q → (x <= inject_Z hi)%Q → (lo <= rint x <= hi)%Z.
Proof.
  destruct x as [n d]. unfold Qle, rint. cbn [Qnum Qden inject_Z].
  rewrite !Z.mul_1_r. intros Hlo Hhi.
  pose proof (Z.div_mod n (Z.pos d) ltac:(lia)) as Hdm.
  pose proof (Z.mod_pos_bound n (Z.pos d) ltac:(lia)) as Hr.
  set (q := (n / Z.pos d)%Z) in *. set (r := (n mod Z.pos d)%Z) in *.
  clearbody q r.
  assert (Hq : (lo <= q)%Z) by nia.
  assert (Hq' : (q <= hi)%Z) by nia.
  assert (Hq1 : (0 < r → q + 1 <= hi)%Z) by nia.
  destruct (Z.compare_spec (2 * r) (Z.pos d)); [destruct (Z.even q)|..]; lia.
Qed.

(** A value between 0 and a whole number stays there when rounded to
    hundredths. *)
Lemma round_between (x : Q) (hi : Z) :
  (0 <= x)%Q → (x <= inject_Z hi)%Q →
  (0 <= round x 2)%Q ∧ (round x 2 <= inject_Z hi)%Q.
Proof.
  intros H0 Hhi. unfold round.
  change (Pos.pow 10 (Pos.of_nat 2)) with 100%positive.
  destruct (rint_between (x * inject_Z 100) 0 (hi * 100)) as [Hlo Hup].
  - change (inject_Z 0) with 0%Q. change (inject_Z 100) with 100%Q. lra.
  - rewrite inject_Z_mult. change (inject_Z 100) with 100%Q. lra.
  - unfold Qle. cbn [Qnum Qden inject_Z]. lia.
Qed.

(** X5: for four means in [0,5] the final score lies in [0,100]. *)
Theorem final_score_within_0_100 (go_live usefulness taste problem_statement : Q) :
  in_range go_live → in_range usefulness →
  in_range taste → in_range problem_statement →
  (0 <= calculate_final_score go_live usefulness taste problem_statement)%Q ∧
  (calculate_final_score go_live usefulness taste problem_statement <= 100)%Q.
Proof.
  intros [? ?] [? ?] [? ?] [? ?]. unfold calculate_final_score.
  apply (round_between _ 100); change (inject_Z 100) with 100%Q; lra.
Qed.

Lemma final_score_within_0_100_witness :
  (0 <= calculate_final_score 5 0 2.5 (1 # 3))%Q ∧
  (calculate_final_score 5 0 2.5 (1 # 3) <= 100)%Q.
Proof.
  apply (final_score_within_0_100 5 0 2.5 (1 # 3)); split; discriminate.
Defined.

(** [rint] of a fraction whose numerator is a multiple of its denominator
    is the quotient. *)
Lemma rint_exact (x : Q) (k : Z) :
  Qnum x = (k * Z.pos (Qden x))%Z → rint x = k.
Proof.
  intros H. unfold rint. rewrite H.
  rewrite Z.div_mul, Z.mod_mul by lia.
  reflexivity.
Qed.


(** The rows of [team_stats] are the aggregates of the teams that have a row
    in the table. *)
Lemma ranking_elem (rows : list ScoreRecord) (s : TeamStats) :
  s ∈ ranking rows ↔
  ∃ team, team ∈ (Col.team_name <$> rows) ∧ s = aggregate rows team.
Proof.
  unfold ranking. rewrite sort_values_Permutation, list_elem_of_fmap.
  split; intros (team & Hs & Hteam); exists team.
  - by rewrite sorted_elem_of, elem_of_list_to_set in Hteam.
  - by rewrite sorted_elem_of, elem_of_list_to_set.
Qed.



Lemma sum_between (lo hi : Q) (xs : list Q) :
  Forall (fun x => (lo <= x)%Q ∧ (x <= hi)%Q) xs →
  (inject_Z (Z.of_nat (length xs)) * lo <= sum xs)%Q ∧
  (sum xs <= inject_Z (Z.of_nat (length xs)) * hi)%Q.
Proof.
  induction 1 as [|x xs [Hlo Hhi] _ [IHlo IHhi]].
  - cbn [length sum foldr]. change (inject_Z (Z.of_nat 0)) with 0%Q. lra.
  - cbn [length sum foldr]. fold (sum xs).
    rewrite Nat2Z.inj_succ, <- Z.add_1_r, inject_Z_plus.
    change (inject_Z 1) with 1%Q. lra.
Qed.

(** The mean of a non-empty column lies between any two bounds of its
    entries. *)
Lemma mean_between (lo hi : Q) (xs : list Q) :
  xs ≠ [] →
  Forall (fun x => (lo <= x)%Q ∧ (x <= hi)%Q) xs →
  (lo <= mean xs)%Q ∧ (mean xs <= hi)%Q.
Proof.
  intros Hne Hall. destruct (sum_between lo hi xs Hall) as [Hlo Hhi].
  assert (Hn : (0 < inject_Z (Z.of_nat (length xs)))%Q).
  { destruct xs; [done|]. unfold Qlt. simpl. lia. }
  unfold mean. split.
  - apply Qle_shift_div_l; [done|]. lra.
  - apply Qle_shift_div_r; [done|]. lra.
Qed.

(** The group of a team that has a row is not empty. *)
Lemma group_nonempty (rows : list ScoreRecord) (team : string) :
  team ∈ (Col.team_name <$> rows) →
  List.filter (fun r => String.eqb (Col.team_name r) team) rows ≠ [].
Proof.
  intros (r & -> & Hr)%list_elem_of_fmap Hnil.
  assert (Hin : r ∈ List.filter
                  (fun r' => String.eqb (Col.team_name r') (Col.team_name r)) rows).
  { apply filter_elem_of. split; [done|]. apply String.eqb_refl. }
  rewrite Hnil in Hin. by apply not_elem_of_nil in Hin.
Qed.

(** The mean of one column over a group, rounded as the report rounds it,
    stays in [0,5] when every entry of the column is in [0,5]. *)
Lemma group_mean_in_range (col : ScoreRecord → Q) (group : list ScoreRecord) :
  group ≠ [] → Forall (fun r => in_range (col r)) group →
  in_range (round (mean (col <$> group)) 2).
Proof.
  intros Hne Hall.
  destruct (mean_between 0 5 (col <$> group)) as [Hlo Hhi].
  - by destruct group.
  - by apply Forall_fmap.
  - apply (round_between _ 5); [done|]. by change (inject_Z 5) with 5%Q.
Qed.

(** X7: when every stored rating lies in [0,5], as it does in every table
    [submit_score] has written, each of the four means the report prints
    for a team lies in [0,5] and the team's final score lies in
    [0,100]. *)
Theorem report_numbers_in_range (rows : list ScoreRecord) (s : TeamStats) :
  Forall well_formed rows →
  s ∈ ranking rows →
  in_range (Agg.go_live s) ∧ in_range (Agg.usefulness s) ∧
  in_range (Agg.taste s) ∧ in_range (Agg.problem_statement s) ∧
  (0 <= Agg.final_score s)%Q ∧ (Agg.final_score s <= 100)%Q.
Proof.
  intros Hwf (team & Hteam & ->)%ranking_elem.
  pose proof (group_nonempty rows team Hteam) as Hne.
  set (group := List.filter (fun r => String.eqb (Col.team_name r) team) rows) in *.
  assert (Hgroup : Forall well_formed group) by (by apply filter_Forall).
  assert (Hg : in_range (round (mean (Col.go_live <$> group)) 2)).
  { apply group_mean_in_range; [done|].
    eapply Forall_impl; [exact Hgroup|]. by intros r (_ & _ & _ & ? & _). }
  assert (Hu : in_range (round (mean (Col.usefulness <$> group)) 2)).
  { apply group_mean_in_range; [done|].
    eapply Forall_impl; [exact Hgroup|]. by intros r (_ & _ & _ & _ & ? & _). }
  assert (Ht : in_range (round (mean (Col.taste <$> group)) 2)).
  { apply group_mean_in_range; [done|].
    eapply Forall_impl; [exact Hgroup|]. by intros r (_ & _ & _ & _ & _ & ? & _). }
  assert (Hp : in_range (round (mean (Col.problem_statement <$> group)) 2)).
  { apply group_mean_in_range; [done|].
    eapply Forall_impl; [exact Hgroup|]. by intros r (_ & _ & _ & _ & _ & _ & ?). }
  unfold aggregate. fold group.
  cbn [Agg.go_live Agg.usefulness Agg.taste Agg.problem_statement Agg.final_score].
  repeat (split; [done|]).
  destruct Hg, Hu, Ht, Hp. unfold calculate_final_score.
  apply (round_between _ 100); change (inject_Z 100) with 100%Q; lra.
Qed.

Lemma rows_80_90_well_formed : Forall well_formed rows_80_90.
Proof.
  repeat constructor; try reflexivity; vm_compute; discriminate.
Qed.

Lemma report_numbers_in_range_witness :
  in_range (Agg.go_live (aggregate rows_80_90 "Fluid")) ∧
  in_range (Agg.usefulness (aggregate rows_80_90 "Fluid")) ∧
  in_range (Agg.taste (aggregate rows_80_90 "Fluid")) ∧
  in_range (Agg.problem_statement (aggregate rows_80_90 "Fluid")) ∧
  (0 <= Agg.final_score (aggregate rows_80_90 "Fluid"))%Q ∧
  (Agg.final_score (aggregate rows_80_90 "Fluid") <= 100)%Q.
Proof.
  apply (report_numbers_in_range rows_80_90).
  - repeat constructor; try reflexivity; vm_compute; discriminate.
  - apply (list_elem_of_lookup_2 _ 0). reflexivity.
Defined.

Lemma str_mul_replicate (s : string) (n : nat) :
  str_mul s (Z.of_nat n) = join (replicate n s).
Proof.
  unfold str_mul. rewrite Nat2Z.id.
  induction n as [|n IH]; [done|].
  rewrite Nat.iter_succ, IH. reflexivity.
Qed.

Lemma int_between (x : Q) (hi : Z) :
  (0 <= x)%Q → (x <= inject_Z hi)%Q → (0 <= int x <= hi)%Z.
Proof.
  destruct x as [n d]. unfold Qle, int. cbn [Qnum Qden inject_Z].
  rewrite !Z.mul_1_r. intros H0 Hhi.
  rewrite Z.quot_div_nonneg by lia.
  pose proof (Z.div_mod n (Z.pos d) ltac:(lia)) as Hdm.
  pose proof (Z.mod_pos_bound n (Z.pos d) ltac:(lia)) as Hr.
  nia.
Qed.

(** X8: the bar of a mean in [0,5] is 20 cells wide: [floor(4 * mean)]
    filled cells followed by the empty cells that make up the 20. *)
Theorem bar_is_20_cells_wide (x : Q) :
  in_range x →
  ∃ filled : nat,
    (filled <= 20)%nat ∧ Z.of_nat filled = int (x * 4) ∧
    length (replicate filled "█" ++ replicate (20 - filled) "░") = 20%nat ∧
    bar x = str_float x +:+ "/5 "
            +:+ join (replicate filled "█" ++ replicate (20 - filled) "░").
Proof.
  intros [H0 H5].
  destruct (int_between (x * 4) 20) as [Hlo Hhi];
    [lra|change (inject_Z 20) with 20%Q; lra|].
  exists (Z.to_nat (int (x * 4))).
  split; [lia|]. split; [lia|].
  split; [rewrite length_app, !length_replicate; lia|].
  unfold bar. cbv zeta. rewrite join_app, <- !str_mul_replicate.
  rewrite Nat2Z.inj_sub by lia. rewrite !Z2Nat.id by lia. reflexivity.
Qed.

Lemma bar_is_20_cells_wide_witness :
  ∃ filled : nat,
    (filled <= 20)%nat ∧ Z.of_nat filled = int (3.33 * 4) ∧
    length (replicate filled "█" ++ replicate (20 - filled) "░") = 20%nat ∧
    bar 3.33 = str_float 3.33 +:+ "/5 "
               +:+ join (replicate filled "█" ++ replicate (20 - filled) "░").
Proof.
  apply (bar_is_20_cells_wide 3.33). split; discriminate.
Defined.

(** [rint] is monotone. *)
Lemma rint_mono (x y : Q) : (x <= y)%Q → (rint x <= rint y)%Z.
Proof.
  destruct x as [n1 d1], y as [n2 d2]. unfold Qle, rint. cbn [Qnum Qden].
  intros Hle.
  pose proof (Z.div_mod n1 (Z.pos d1) ltac:(lia)) as Hdm1.
  pose proof (Z.mod_pos_bound n1 (Z.pos d1) ltac:(lia)) as Hr1.
  pose proof (Z.div_mod n2 (Z.pos d2) ltac:(lia)) as Hdm2.
  pose proof (Z.mod_pos_bound n2 (Z.pos d2) ltac:(lia)) as Hr2.
  set (q1 := (n1 / Z.pos d1)%Z) in *. set (r1 := (n1 mod Z.pos d1)%Z) in *.
  set (q2 := (n2 / Z.pos d2)%Z) in *. set (r2 := (n2 mod Z.pos d2)%Z) in *.
  clearbody q1 r1 q2 r2.
  pose proof (Pos2Z.is_pos d1) as Hd1. pose proof (Pos2Z.is_pos d2) as Hd2.
  set (D1 := Z.pos d1) in *. set (D2 := Z.pos d2) in *. clearbody D1 D2.
  subst n1 n2.
  assert (Hq : (q1 <= q2)%Z).
  { destruct (Z_le_gt_dec q1 q2) as [|Hgt]; [done|]. exfalso.
    assert (H1 : (D1 * D2 * (q2 + 1) <= D1 * D2 * q1)%Z)
      by (apply Z.mul_le_mono_nonneg_l; nia).
    assert (H2 : (r2 * D1 < D2 * D1)%Z) by (apply Z.mul_lt_mono_pos_r; lia).
    assert (H3 : (0 <= r1 * D2)%Z) by nia.
    lia. }
  destruct (Z.eq_dec q1 q2) as [->|Hne].
  - assert (Hr : (r1 * D2 <= r2 * D1)%Z) by lia.
    destruct (Z.compare_spec (2 * r1) D1), (Z.compare_spec (2 * r2) D2);
      destruct (Z.even q2); try lia; nia.
  - destruct (Z.compare_spec (2 * r1) D1), (Z.compare_spec (2 * r2) D2);
      destruct (Z.even q1), (Z.even q2); lia.
Qed.

Lemma round_mono (x y : Q) : (x <= y)%Q → (round x 2 <= round y 2)%Q.
Proof.
  intros Hle. unfold round.
  change (Pos.pow 10 (Pos.of_nat 2)) with 100%positive.
  assert (Hr : (rint (x * inject_Z 100) <= rint (y * inject_Z 100))%Z).
  { apply rint_mono. change (inject_Z 100) with 100%Q. lra. }
  unfold Qle. cbn [Qnum Qden]. lia.
Qed.

(** X18: the final score is monotone: raising any of the four means never
    lowers it. *)
Theorem final_score_monotone (g u t p g' u' t' p' : Q) :
  (g <= g')%Q → (u <= u')%Q → (t <= t')%Q → (p <= p')%Q →
  (calculate_final_score g u t p <= calculate_final_score g' u' t' p')%Q.
Proof.
  intros Hg Hu Ht Hp. unfold calculate_final_score. apply round_mono. lra.
Qed.

Lemma final_score_monotone_witness :
  (calculate_final_score 3.33 4 2.5 0 <= calculate_final_score 3.34 4 2.5 1)%Q.
Proof.
  apply (final_score_monotone 3.33 4 2.5 0 3.34 4 2.5 1); discriminate.
Defined.

(** ** Further properties: the counts of the report *)













(** ** Further properties: how the operations compose *)

(** X12: the "Teams Not Yet Scored" section is left out exactly when every
    team of [TEAM_NAMES] has a row in the table. *)
Theorem tail_absent_iff_all_teams_scored (rows : list ScoreRecord) :
  not_yet_scored (unscored (ranking rows)) = "" ↔
  ∀ team, team ∈ TEAM_NAMES → team ∈ (Col.team_name <$> rows).
Proof.
  unfold not_yet_scored.
  destruct (decide (unscored (ranking rows) = ∅)) as [Hempty|Hsome]; split.
  - intros _ team Hknown.
    destruct (decide (team ∈ (Col.team_name <$> rows))) as [|Hnot]; [done|].
    assert (Hin : team ∈ unscored (ranking rows))
      by (by apply unscored_elem_of).
    rewrite Hempty in Hin. by apply not_elem_of_empty in Hin.
  - done.
  - unfold nl. cbv [String.append]. discriminate.
  - intros Hall. destruct Hsome. apply set_eq. intros team.
    rewrite unscored_elem_of. split; [|by intros ?%not_elem_of_empty].
    intros [Hknown Hnot]. destruct Hnot. by apply Hall.
Qed.



(** X14: the start-up code never touches a file that holds a table, and
    when the file can be written it replaces an absent or zero-byte file by
    the header-only table, after which [generate_report] answers with the
    "no scores yet" message and a second run of the start-up code changes
    nothing. *)
Theorem startup_creates_the_empty_table (w : world) :
  (∀ rows, scores_csv w = Table rows → startup w = (Returned tt, w)) ∧
  (write_fault w = None →
   scores_csv w = Absent ∨ scores_csv w = ZeroBytes →
   startup w = (Returned tt, set_scores_csv (Table []) w) ∧
   generate_report (after (startup w))
   = (Returned msg_no_scores, after (startup w)) ∧
   startup (after (startup w)) = (Returned tt, after (startup w))).
Proof.
  split.
  - intros rows Hw. unfold startup. by rewrite Hw.
  - intros Hwr Hfile.
    assert (Hrun : startup w = (Returned tt, set_scores_csv (Table []) w)).
    { unfold startup, to_csv. destruct Hfile as [-> | ->]; by rewrite Hwr. }
    rewrite Hrun. unfold after. simpl.
    split; [done|]. split; [by apply generate_report_header_only|done].
Qed.

Lemma startup_creates_the_empty_table_witness :
  startup w_absent = (Returned tt, set_scores_csv (Table []) w_absent) ∧
  generate_report (after (startup w_absent))
  = (Returned msg_no_scores, after (startup w_absent)) ∧
  startup (after (startup w_absent)) = (Returned tt, after (startup w_absent)).
Proof.
  apply (proj2 (startup_creates_the_empty_table w_absent)).
  - reflexivity.
  - left. reflexivity.
Defined.

(** X15: whitespace around the judge name has no effect on what is stored:
    a call with [judge_name] leaves the same world as the call with
    [judge_name.strip()]. *)
Theorem judge_name_padding_is_ignored (j t : string) (g u a p : Q) (w : world) :
  after (submit_score j t g u a p w)
  = after (submit_score (strip j) t g u a p w).
Proof.
  pose proof (strip_trimmed j) as Hidem. unfold trimmed in Hidem.
  destruct (truthy (strip j)) eqn:Hj.
  2:{ unfold submit_score. by rewrite Hidem, Hj. }
  destruct (truthy t) eqn:Ht.
  2:{ unfold submit_score. by rewrite Hidem, Hj, Ht. }
  assert (Hj' : truthy (strip (strip j)) = true) by (by rewrite Hidem).
  rewrite (submit_score_run j t Hj Ht g u a p w).
  rewrite (submit_score_run (strip j) t Hj' Ht g u a p w).
  assert (Hup : ∀ rows,
            upsert j t (new_score (clock w) j t g u a p) rows
            = upsert (strip j) t (new_score (clock w) (strip j) t g u a p) rows).
  { intros rows. unfold upsert, new_score, mask. by rewrite Hidem. }
  destruct (loaded (scores_csv w)) as [[rows|more]|e];
    destruct (existsb out_of_range [g; u; a; p]);
    try destruct (write_fault w); try done.
  unfold after. simpl. by rewrite Hup.
Qed.




(** ** Further properties: the score in binary64 *)

Lemma doubles_agree_on_sliders :
  forallb (fun g => forallb (fun u => forallb (fun t => forallb (fun p =>
    doubles_agree g u t p) slider_values) slider_values) slider_values)
    slider_values = true.
Proof. vm_compute. reflexivity. Qed.

Lemma final_score_of_whole (g u t p : Z) :
  (calculate_final_score (inject_Z g) (inject_Z u) (inject_Z t) (inject_Z p)
   == inject_Z (6 * g + 6 * u + 4 * t + 4 * p))%Q.
Proof.
  unfold calculate_final_score, round.
  change (Pos.pow 10 (Pos.of_nat 2)) with 100%positive.
  rewrite (rint_exact _ (600 * g + 600 * u + 400 * t + 400 * p)).
  - unfold Qeq. cbn [Qnum Qden inject_Z]. lia.
  - cbn [Qnum Qden Qmult Qplus inject_Z]. lia.
Qed.

(** X17: for the ratings the sliders can send (whole numbers from 0 to 5),
    rounding errors of binary64 arithmetic do not reach the result: the
    double [calculate_final_score] computes is exactly the number the
    rational model gives, 6 go_live + 6 usefulness + 4 taste
    + 4 problem_statement. *)
Theorem final_score_exact_on_slider_values (g u t p : Z) :
  In g slider_values → In u slider_values →
  In t slider_values → In p slider_values →
  ∃ q,
    B64.exact (B64.calculate_final_score
                 (B64.of_Z g) (B64.of_Z u) (B64.of_Z t) (B64.of_Z p)) = Some q ∧
    (q == calculate_final_score
            (inject_Z g) (inject_Z u) (inject_Z t) (inject_Z p))%Q ∧
    (q == inject_Z (6 * g + 6 * u + 4 * t + 4 * p))%Q.
Proof.
  intros Hg Hu Ht Hp.
  pose proof doubles_agree_on_sliders as Hall.
  rewrite forallb_forall in Hall. specialize (Hall g Hg).
  rewrite forallb_forall in Hall. specialize (Hall u Hu).
  rewrite forallb_forall in Hall. specialize (Hall t Ht).
  rewrite forallb_forall in Hall. specialize (Hall p Hp).
  unfold doubles_agree in Hall.
  destruct (B64.exact _) as [q|]; [|done].
  apply Qeq_bool_iff in Hall. exists q. split; [done|]. split; [done|].
  rewrite Hall. apply final_score_of_whole.
Qed.

Lemma final_score_exact_on_slider_values_witness :
  ∃ q,
    B64.exact (B64.calculate_final_score
                 (B64.of_Z 4) (B64.of_Z 3) (B64.of_Z 5) (B64.of_Z 2)) = Some q ∧
    (q == calculate_final_score
            (inject_Z 4) (inject_Z 3) (inject_Z 5) (inject_Z 2))%Q ∧
    (q == inject_Z (6 * 4 + 6 * 3 + 4 * 5 + 4 * 2))%Q.
Proof.
  apply (final_score_exact_on_slider_values 4 3 5 2); simpl; tauto.
Defined.
